(** * trigger-workflow-api.py: dispatching a GitHub Actions workflow

    A shallow embedding of [trigger-workflow-api.py] and the proofs of its
    observable behaviour: what it prints, which request it hands to
    [requests.post], and the status the process exits with.

    Conventions.
    - A Python [str] is a [string] holding its UTF-8 bytes, so the pictographs
      of the messages are the byte sequences of the source file.
    - A Python [int] is a [Z]; [dict]s with string keys are [gmap string _]
      where only lookups matter (the environment, the headers) and an
      association list where the order of the members is part of the value
      (the JSON payload).
    - The value of [os.getenv] is [option string]: [None] is Python's [None].
    - Effects are the nodes of a program tree ([Proc]); [exec] runs a tree in
      a [World] and yields the trace of what the process did and how it
      ended.

    What is taken from the libraries as given.
    - A request is one call of [requests.post]; what the HTTP client does
      with it on the wire (serialising the payload, adding its default
      headers, following redirects) is the client's business.
    - A response is what the script reads of it: [status_code] and [text].
    - Standard output accepts every string that is printed. *)

From Stdlib Require Import Ascii.
From stdpp Require Import base option list strings pretty gmap.

Local Open Scope Z_scope.

(** ** Python values and builtins used by the script *)

Module Py.

(** Truth value of a [str]-or-[None]: [None] and the empty string are
    false, every other string is true. *)
Definition truthy (v : option string) : bool :=
  match v with
  | None => false
  | Some "" => false
  | Some _ => true
  end.

(** [format(v)] for a replacement field [{v}] of an f-string. *)
Definition fmt_str (v : option string) : string :=
  match v with
  | None => "None"
  | Some s => s
  end.

(** [format(n)] for an [int] in a replacement field: its decimal numeral. *)
Definition fmt_int (n : Z) : string := pretty n.

(** JSON-serialisable values built by the script: strings and dicts. *)
#[warnings="-register-all"]
Inductive JSON : Type :=
| JString (s : string)
| JObject (members : list (string * JSON)).

End Py.
Export Py.

(** ** The interface to the outside world *)

(** The verb of a call into [requests]; the script only uses [requests.post]. *)
Inductive Method : Type := GET | POST.

(** The arguments of one call [requests.<verb>(url, json=…, headers=…)]. *)
Record Request : Type := mkRequest {
  req_method : Method;
  req_url : string;
  req_json : JSON;
  req_headers : gmap string string
}.

(** The two attributes of a [requests.Response] that the script reads. *)
Record Response : Type := mkResponse {
  status_code : Z;
  text : string
}.

(** What a process does that can be seen from outside. *)
Inductive Event : Type :=
| EvPrint (line : string)
| EvRequest (req : Request).

(** How the evaluation of a piece of code ends: it yields a value, it raises
    [SystemExit] through [sys.exit], or an exception of the HTTP client
    (DNS, connection, TLS) propagates, which nothing in the script catches. *)
Inductive Outcome (A : Type) : Type :=
| Returned (a : A)
| SystemExit (code : Z)
| Unhandled.
Arguments Returned {A} a.
Arguments SystemExit {A} code.
Arguments Unhandled {A}.

(** The environment of one invocation: the process environment variables and
    the endpoint, which either answers a request or fails at transport level
    ([None]). *)
Record World : Type := mkWorld {
  environ : gmap string string;
  endpoint : Request → option Response
}.

(** ** Program trees *)

Inductive Proc (A : Type) : Type :=
| Ret (a : A)
| Getenv (name : string) (k : option string → Proc A)
| Print (line : string) (k : Proc A)
| Requests (req : Request) (k : Response → Proc A)
| Exit (code : Z).
Arguments Ret {A} a.
Arguments Getenv {A} name k.
Arguments Print {A} line k.
Arguments Requests {A} req k.
Arguments Exit {A} code.

Fixpoint bind {A B : Type} (m : Proc A) (f : A → Proc B) : Proc B :=
  match m with
  | Ret a => f a
  | Getenv name k => Getenv name (λ v, bind (k v) f)
  | Print line k => Print line (bind k f)
  | Requests req k => Requests req (λ r, bind (k r) f)
  | Exit code => Exit code
  end.

#[export] Instance Proc_ret : MRet Proc := @Ret.
#[export] Instance Proc_bind : MBind Proc := λ A B f m, bind m f.

(** The calls of the script, as one-node trees. *)
Definition os_getenv (name : string) : Proc (option string) := Getenv name Ret.
Definition print (line : string) : Proc unit := Print line (Ret tt).
Definition requests_post (url : string) (json : JSON)
    (headers : gmap string string) : Proc Response :=
  Requests (mkRequest POST url json headers) Ret.
Definition sys_exit {A : Type} (code : Z) : Proc A := Exit code.

(** ** Running a program tree *)

Record Run (A : Type) : Type := mkRun {
  trace : list Event;
  outcome : Outcome A
}.
Arguments mkRun {A} trace outcome.
Arguments trace {A} r.
Arguments outcome {A} r.

Definition emit {A : Type} (e : Event) (r : Run A) : Run A :=
  mkRun (e :: trace r) (outcome r).

Fixpoint exec {A : Type} (w : World) (p : Proc A) : Run A :=
  match p with
  | Ret a => mkRun [] (Returned a)
  | Getenv name k => exec w (k (environ w !! name))
  | Print line k => emit (EvPrint line) (exec w k)
  | Requests req k =>
      match endpoint w req with
      | Some resp => emit (EvRequest req) (exec w (k resp))
      | None => mkRun [EvRequest req] Unhandled
      end
  | Exit code => mkRun [] (SystemExit code)
  end.

(** The line feed that [print] appends to its argument. *)
Definition newline : string := String "010"%char "".

(** What was written to standard output. *)
Fixpoint stdout (t : list Event) : string :=
  match t with
  | [] => ""
  | EvPrint line :: t' => line +:+ newline +:+ stdout t'
  | EvRequest _ :: t' => stdout t'
  end.

(** The lines handed to [print], in order. *)
Fixpoint printed (t : list Event) : list string :=
  match t with
  | [] => []
  | EvPrint line :: t' => line :: printed t'
  | EvRequest _ :: t' => printed t'
  end.

(** The requests handed to the HTTP client, in order. *)
Fixpoint requested (t : list Event) : list Request :=
  match t with
  | [] => []
  | EvPrint _ :: t' => requested t'
  | EvRequest req :: t' => req :: requested t'
  end.

(** The exit status of the interpreter running the script: the argument of
    [sys.exit], 0 when the script runs to its end, 1 when an exception
    propagates to the top level. *)
Definition exit_status {A : Type} (o : Outcome A) : Z :=
  match o with
  | Returned _ => 0
  | SystemExit code => code
  | Unhandled => 1
  end.

(** ** The script *)

(** Configuration *)
Definition OWNER : string := "cedyson8-creator".
Definition REPO : string := "traffic-booster-app".
Definition WORKFLOW_FILE : string := "build-release.yml".
Definition BRANCH : string := "main".

Definition url : string :=
  "https://api.github.com/repos/" +:+ OWNER +:+ "/" +:+ REPO
    +:+ "/actions/workflows/" +:+ WORKFLOW_FILE +:+ "/dispatches".

Definition headers (token : option string) : gmap string string :=
  <["X-GitHub-Api-Version" := "2022-11-28"]>
    (<["Authorization" := "Bearer " +:+ fmt_str token]>
      (<["Accept" := "application/vnd.github+json"]> ∅)).

Definition payload : JSON :=
  JObject [("ref", JString BRANCH);
           ("inputs", JObject [("version", JString "1.0.0")])].

(** Trigger the build-release workflow *)
Definition trigger_workflow (token : option string) : Proc bool :=
  print ("🔄 Triggering workflow: " +:+ WORKFLOW_FILE);;
  print ("📍 Repository: " +:+ OWNER +:+ "/" +:+ REPO);;
  print ("🌿 Branch: " +:+ BRANCH);;
  response ← requests_post url payload (headers token);
  if status_code response =? 204 then
    print "✅ Workflow triggered successfully!";;
    print ("📊 Check progress at: https://github.com/" +:+ OWNER +:+ "/"
             +:+ REPO +:+ "/actions");;
    mret true
  else if status_code response =? 401 then
    print "❌ Authentication failed. Invalid or expired token.";;
    mret false
  else if status_code response =? 404 then
    print "❌ Workflow not found. Make sure the workflow file exists.";;
    mret false
  else
    print ("❌ Error: " +:+ fmt_int (status_code response));;
    print (text response);;
    mret false.

(** The block under [if __name__ == "__main__":]. *)
Definition main : Proc unit :=
  token ← os_getenv "GITHUB_TOKEN";
  (if negb (truthy token) then
     print "❌ GITHUB_TOKEN environment variable not set";;
     print "📝 Instructions:";;
     print "1. Create a Personal Access Token at: https://github.com/settings/tokens";;
     print "2. Grant 'actions' scope";;
     print "3. Run: export GITHUB_TOKEN='your_token_here'";;
     print "4. Then run this script again";;
     sys_exit 1
   else mret tt);;
  success ← trigger_workflow token;
  sys_exit (if success : bool then 0 else 1).

(** ** Vocabulary of the statements *)

(** The run of [m] followed by the run of its continuation, when [m] yields a
    value; [sys.exit] and a propagating exception skip the continuation. *)
Definition run_bind {A B : Type} (r : Run A) (k : A → Run B) : Run B :=
  match outcome r with
  | Returned a => mkRun (trace r ++ trace (k a)) (outcome (k a))
  | SystemExit code => mkRun (trace r) (SystemExit code)
  | Unhandled => mkRun (trace r) Unhandled
  end.

(** The answers the endpoint gave to the requests of a trace. *)
Definition replies (w : World) (t : list Event) : list (option Response) :=
  endpoint w <$> requested t.

(** The lines printed when the token is missing. *)
Definition instructions : list string :=
  ["❌ GITHUB_TOKEN environment variable not set";
   "📝 Instructions:";
   "1. Create a Personal Access Token at: https://github.com/settings/tokens";
   "2. Grant 'actions' scope";
   "3. Run: export GITHUB_TOKEN='your_token_here'";
   "4. Then run this script again"].

(** The three status lines printed before the request is sent. *)
Definition banner : list string :=
  ["🔄 Triggering workflow: build-release.yml";
   "📍 Repository: cedyson8-creator/traffic-booster-app";
   "🌿 Branch: main"].

(** ** Sample worlds *)

(** A mocked endpoint: the same answer to every request. *)
Definition mock (env : gmap string string) (reply : option Response) : World :=
  mkWorld env (λ _, reply).

(** An endpoint that accepts one token and rejects every other. *)
Definition checking (env : gmap string string) (valid : string) : World :=
  mkWorld env (λ req,
    if decide (req_headers req !! "Authorization" = Some ("Bearer " +:+ valid))
    then Some (mkResponse 204 "")
    else Some (mkResponse 401 "Bad credentials")).

Definition with_token : gmap string string := {[ "GITHUB_TOKEN" := "ghp_example" ]}.
Definition other_token : gmap string string := {[ "GITHUB_TOKEN" := "ghp_other" ]}.
Definition empty_token : gmap string string := {[ "GITHUB_TOKEN" := "" ]}.

Definition unset : World := mock ∅ None.
Definition blank : World := mock empty_token (Some (mkResponse 204 "")).
Definition accepted : World := checking with_token "ghp_example".
Definition rejected : World := checking other_token "ghp_example".
Definition not_found : World := mock with_token (Some (mkResponse 404 "Not Found")).
Definition failing : World := mock with_token (Some (mkResponse 500 "internal error")).
Definition failing_other : World := mock other_token (Some (mkResponse 500 "internal error")).
Definition unreachable : World := mock with_token None.
Definition not_found_verbose : World :=
  mock other_token (Some (mkResponse 404 "no workflow named build-release.yml")).
Definition with_token_and_more : gmap string string :=
  <["GITHUB_REPOSITORY" := "someone/else"]> (<["HOME" := "/root"]> with_token).
Definition failing_elsewhere : World :=
  mock with_token_and_more (Some (mkResponse 500 "internal error")).

(** ** Lines *)

(** A string without a line feed: printed, it is one line of the output. *)
Fixpoint single_line (s : string) : bool :=
  match s with
  | "" => true
  | String c s' => negb (Ascii.eqb c "010") && single_line s'
  end.

(** ** Reading decimal numerals *)

(** The value of a decimal digit; no other character has one. *)
Definition digit_of (c : ascii) : option N :=
  let n := N_of_ascii c in
  if ((48 <=? n) && (n <=? 57))%N then Some (n - 48)%N else None.

(** The number that a run of decimal digits denotes, read from the left
    with [acc] as the value of the digits already read. *)
Fixpoint read_digits (acc : N) (s : string) : option N :=
  match s with
  | "" => Some acc
  | String c s' =>
      match digit_of c with
      | Some d => read_digits (10 * acc + d)%N s'
      | None => None
      end
  end.

(** A natural number in decimal: one digit at least, and digits only. *)
Definition read_nat (s : string) : option N :=
  match s with
  | "" => None
  | String _ _ => read_digits 0 s
  end.

(** An integer in decimal: digits, after a minus sign when negative. *)
Definition read_int (s : string) : option Z :=
  match s with
  | "" => None
  | String c s' =>
      if Ascii.eqb c "-" then (λ n, - Z.of_N n) <$> read_nat s'
      else Z.of_N <$> read_nat s
  end.

(** * Properties *)

(** ** Sequencing *)

Lemma run_eta {A : Type} (r : Run A) : mkRun (trace r) (outcome r) = r.
Proof. by destruct r. Qed.

Lemma run_bind_emit {A B : Type} (e : Event) (r : Run A) (k : A → Run B) :
  run_bind (emit e r) k = emit e (run_bind r k).
Proof. unfold run_bind, emit; cbn. by destruct (outcome r). Qed.

Lemma exec_bind {A B : Type} (w : World) (m : Proc A) (f : A → Proc B) :
  exec w (m ≫= f) = run_bind (exec w m) (λ a, exec w (f a)).
Proof.
  change (m ≫= f) with (bind m f).
  induction m as [a|name k IH|line k IH|req k IH|code]; cbn.
  - unfold run_bind; cbn. by rewrite run_eta.
  - apply IH.
  - by rewrite IH, run_bind_emit.
  - destruct (endpoint w req) as [resp|]; [|done].
    by rewrite IH, run_bind_emit.
  - done.
Qed.

Lemma stdout_printed (t : list Event) :
  stdout t = foldr (λ line out, line +:+ newline +:+ out) "" (printed t).
Proof. induction t as [|[line|req] t IH]; cbn; congruence. Qed.

(** ** The two paths through the main block *)

Lemma exec_main_falsy (w : World) :
  truthy (environ w !! "GITHUB_TOKEN") = false →
  exec w main = mkRun (EvPrint <$> instructions) (SystemExit 1).
Proof.
  intros Hfalsy. unfold main; cbn.
  by rewrite Hfalsy.
Qed.

Lemma exec_main_truthy (w : World) :
  truthy (environ w !! "GITHUB_TOKEN") = true →
  exec w main =
    run_bind (exec w (trigger_workflow (environ w !! "GITHUB_TOKEN")))
      (λ success : bool, mkRun [] (SystemExit (if success then 0 else 1))).
Proof.
  intros Htruthy. unfold main; cbn -[trigger_workflow].
  rewrite Htruthy; cbn -[trigger_workflow].
  by rewrite exec_bind.
Qed.

(** ** The request and the status lines of [trigger_workflow] *)

Lemma requested_trigger_workflow (w : World) (token : option string) :
  requested (trace (exec w (trigger_workflow token))) =
    [mkRequest POST url payload (headers token)].
Proof.
  unfold trigger_workflow; cbn.
  destruct (endpoint w _) as [resp|]; cbn; [|done].
  by destruct (status_code resp =? 204), (status_code resp =? 401),
    (status_code resp =? 404).
Qed.

Lemma replies_trigger_workflow (w : World) (token : option string)
    (resp : Response) :
  replies w (trace (exec w (trigger_workflow token))) = [Some resp] →
  endpoint w (mkRequest POST url payload (headers token)) = Some resp.
Proof.
  unfold replies. rewrite requested_trigger_workflow; cbn. congruence.
Qed.

Lemma trace_run_bind_exit {A B : Type} (r : Run A) (code : A → Z) :
  trace (run_bind r (λ a, mkRun (A:=B) [] (SystemExit (code a)))) = trace r.
Proof. unfold run_bind. destruct (outcome r); cbn; by rewrite ?app_nil_r. Qed.

Lemma truthy_nonempty (token : string) :
  token ≠ "" → truthy (Some token) = true.
Proof. by destruct token. Qed.

Lemma trace_main (w : World) (token : string) :
  environ w !! "GITHUB_TOKEN" = Some token → token ≠ "" →
  trace (exec w main) = trace (exec w (trigger_workflow (Some token))).
Proof.
  intros Henv Htok. rewrite exec_main_truthy, Henv.
  - apply trace_run_bind_exit.
  - rewrite Henv. by apply truthy_nonempty.
Qed.

Lemma outcome_main (w : World) (token : string) :
  environ w !! "GITHUB_TOKEN" = Some token → token ≠ "" →
  outcome (exec w main) =
    match outcome (exec w (trigger_workflow (Some token))) with
    | Returned success => SystemExit (if success then 0 else 1)
    | SystemExit code => SystemExit code
    | Unhandled => Unhandled
    end.
Proof.
  intros Henv Htok. rewrite exec_main_truthy, Henv.
  - unfold run_bind.
    by destruct (outcome (exec w (trigger_workflow (Some token)))).
  - rewrite Henv. by apply truthy_nonempty.
Qed.

(** Runs [trigger_workflow] on the answer [Hreply : endpoint _ _ = Some _]
    and leaves one goal per branch of the status dispatch, with the
    comparisons decided. *)
Ltac dispatch_on Hreply :=
  unfold trigger_workflow; cbn; rewrite ?Hreply; cbn;
  repeat match goal with
    | |- context [?n =? ?c] => destruct (Z.eqb_spec n c); cbn
    end.

(** ** Missing credential *)

(** C1: when GITHUB_TOKEN is unset or empty, the run consists of printing
    the six instruction lines (where to create a token, which scope to grant,
    how to set the variable) and nothing else: no request is handed to the
    HTTP client, none of the output of [trigger_workflow] appears, and the
    process exits with status 1. *)
Theorem missing_token_exits_1_without_request (w : World) :
  environ w !! "GITHUB_TOKEN" = None ∨ environ w !! "GITHUB_TOKEN" = Some "" →
  trace (exec w main) = EvPrint <$> instructions ∧
  printed (trace (exec w main)) =
    ["❌ GITHUB_TOKEN environment variable not set";
     "📝 Instructions:";
     "1. Create a Personal Access Token at: https://github.com/settings/tokens";
     "2. Grant 'actions' scope";
     "3. Run: export GITHUB_TOKEN='your_token_here'";
     "4. Then run this script again"] ∧
  requested (trace (exec w main)) = [] ∧
  outcome (exec w main) = SystemExit 1 ∧
  exit_status (outcome (exec w main)) = 1.
Proof.
  intros Hmissing.
  rewrite exec_main_falsy; [done|].
  by destruct Hmissing as [-> | ->].
Qed.

Lemma missing_token_exits_1_without_request_unset :
  (environ unset !! "GITHUB_TOKEN" = None ∨
   environ unset !! "GITHUB_TOKEN" = Some "") ∧
  requested (trace (exec unset main)) = [] ∧
  exit_status (outcome (exec unset main)) = 1.
Proof.
  assert (Hmissing : environ unset !! "GITHUB_TOKEN" = None ∨
                     environ unset !! "GITHUB_TOKEN" = Some "")
    by (left; reflexivity).
  split; [exact Hmissing|].
  split; apply (missing_token_exits_1_without_request unset Hmissing).
Defined.

(** ** Decimal numerals *)

(** Distinct status codes are printed as distinct numerals. *)
Lemma fmt_int_inj (m n : Z) : fmt_int m = fmt_int n → m = n.
Proof. apply (inj pretty). Qed.

Example fmt_int_500 : fmt_int 500 = "500".
Proof. reflexivity. Qed.

Example fmt_int_negative : fmt_int (-7) = "-7".
Proof. reflexivity. Qed.

Lemma digit_of_pretty_N_char (d : N) :
  (d < 10)%N → digit_of (pretty_N_char d) = Some d.
Proof.
  intros Hd.
  assert (d = 0 ∨ d = 1 ∨ d = 2 ∨ d = 3 ∨ d = 4 ∨ d = 5 ∨ d = 6 ∨ d = 7
          ∨ d = 8 ∨ d = 9)%N as Hcases by lia.
  by repeat destruct Hcases as [->|Hcases]; [..|subst d].
Qed.

(** The digits that [pretty] puts in front of [s] read as [x], shifted
    into whatever was read before them. *)
Lemma read_digits_pretty_N_go (x : N) (s : string) :
  ∃ k : N, ∀ acc : N,
    read_digits acc (pretty_N_go x s) = read_digits (acc * 10 ^ k + x)%N s.
Proof.
  revert s. induction (N.lt_wf_0 x) as [x _ IH]; intros s.
  assert (x = 0 ∨ 0 < x)%N as [->|Hpos] by lia.
  - exists 0%N. intros acc. rewrite pretty_N_go_0. f_equal. lia.
  - destruct (IH (x `div` 10)%N (N.div_lt x 10 Hpos eq_refl)
                (String (pretty_N_char (x `mod` 10)) s)) as [k Hk].
    exists (N.succ k). intros acc.
    rewrite pretty_N_go_step, Hk by done. cbn.
    rewrite digit_of_pretty_N_char by (by apply N.mod_lt).
    f_equal. rewrite N.pow_succ_r'.
    pose proof (N.div_mod x 10). lia.
Qed.

Lemma read_nat_pretty (x : N) : read_nat (pretty x) = Some x.
Proof.
  unfold pretty, pretty_N. case_decide as Hx; [by subst|].
  destruct (read_digits_pretty_N_go x "") as [k Hk].
  specialize (Hk 0%N). rewrite N.mul_0_l, N.add_0_l in Hk.
  destruct (pretty_N_go x "") as [|c s]; [|exact Hk].
  injection Hk as Hk. lia.
Qed.

(** What [pretty] writes for an integer reads back as that integer: it is
    its decimal numeral. *)
Lemma read_int_pretty (n : Z) : read_int (pretty n) = Some n.
Proof.
  destruct n as [|p|p]; [done|..].
  - change (pretty (Z.pos p)) with (pretty (N.pos p)).
    pose proof (read_nat_pretty (N.pos p)) as Hread.
    destruct (pretty (N.pos p)) as [|c s]; [done|].
    unfold read_int. destruct (Ascii.eqb_spec c "-") as [->|_].
    + done.
    + by rewrite Hread.
  - change (pretty (Z.neg p)) with (String "-" (pretty (N.pos p))).
    unfold read_int. cbn. by rewrite read_nat_pretty.
Qed.

Example read_int_rejects_what_is_no_numeral :
  read_int "" = None ∧ read_int "-" = None ∧ read_int "50x" = None ∧
  read_int "500" = Some 500.
Proof. repeat split; reflexivity. Qed.

(** ** Invocations with a token *)

Section Authenticated.

Variable w : World.
Variable token : string.
Hypothesis Henv : environ w !! "GITHUB_TOKEN" = Some token.
Hypothesis Htok : token ≠ "".

Lemma requested_main :
  requested (trace (exec w main)) =
    [mkRequest POST url payload (headers (Some token))].
Proof. rewrite (trace_main w token) by done. apply requested_trigger_workflow. Qed.

Lemma replies_main (resp : Response) :
  replies w (trace (exec w main)) = [Some resp] →
  endpoint w (mkRequest POST url payload (headers (Some token))) = Some resp.
Proof.
  rewrite (trace_main w token) by done. apply replies_trigger_workflow.
Qed.

(** C2: when the endpoint answers the request with a response, the call of
    [trigger_workflow] returns [True] exactly when the status code is 204,
    the process exits with status 0 exactly when the status code is 204 and
    with status 1 for every other code, and the process exits with status 0
    exactly when [trigger_workflow] returned [True]. *)
Theorem exit_status_0_iff_204 (resp : Response) :
  replies w (trace (exec w main)) = [Some resp] →
  (outcome (exec w (trigger_workflow (Some token))) = Returned true
     ↔ status_code resp = 204) ∧
  (exit_status (outcome (exec w main)) = 0 ↔ status_code resp = 204) ∧
  (status_code resp ≠ 204 → exit_status (outcome (exec w main)) = 1) ∧
  (exit_status (outcome (exec w main)) = 0
     ↔ outcome (exec w (trigger_workflow (Some token))) = Returned true).
Proof.
  intros Hreply%replies_main.
  rewrite (outcome_main w token) by done.
  dispatch_on Hreply; repeat split; intros; (done || lia).
Qed.

(** C3: the only request of the run is a POST to the dispatches URL of
    build-release.yml in cedyson8-creator/traffic-booster-app, with the
    headers Accept, Authorization (Bearer followed by the token) and
    X-GitHub-Api-Version, and the JSON payload with ref main and inputs
    version 1.0.0.  Method, URL, payload and every header other than
    Authorization are constants: nothing of the environment but the token
    enters the request, and the token only enters the Authorization
    header. *)
Theorem request_is_fixed_post :
  ∃ req : Request,
    requested (trace (exec w main)) = [req] ∧
    req_method req = POST ∧
    req_url req =
      "https://api.github.com/repos/cedyson8-creator/traffic-booster-app/actions/workflows/build-release.yml/dispatches" ∧
    req_headers req !! "Accept" = Some "application/vnd.github+json" ∧
    req_headers req !! "Authorization" = Some ("Bearer " +:+ token) ∧
    req_headers req !! "X-GitHub-Api-Version" = Some "2022-11-28" ∧
    req_json req =
      JObject [("ref", JString "main");
               ("inputs", JObject [("version", JString "1.0.0")])] ∧
    delete "Authorization" (req_headers req) =
      {[ "Accept" := "application/vnd.github+json";
         "X-GitHub-Api-Version" := "2022-11-28" ]}.
Proof.
  eexists. split; [apply requested_main|]. cbn.
  (* the lookups and the deletion compute on the three-entry map *)
  repeat (split; [reflexivity|]). reflexivity.
Qed.

(** C4: when the endpoint answers with status 204, the process prints, after
    the status lines, the success message and the link to the Actions tab,
    a line that contains cedyson8-creator/traffic-booster-app, and exits
    with status 0. *)
Theorem status_204_reports_success (resp : Response) :
  replies w (trace (exec w main)) = [Some resp] →
  status_code resp = 204 →
  printed (trace (exec w main)) =
    banner ++
    ["✅ Workflow triggered successfully!";
     "📊 Check progress at: https://github.com/cedyson8-creator/traffic-booster-app/actions"] ∧
  (∃ pre post : string,
     last (printed (trace (exec w main))) =
       Some (pre +:+ "cedyson8-creator/traffic-booster-app" +:+ post)) ∧
  exit_status (outcome (exec w main)) = 0.
Proof.
  intros Hreply%replies_main H204.
  rewrite (outcome_main w token), (trace_main w token) by done.
  dispatch_on Hreply; try lia.
  repeat split.
  by exists "📊 Check progress at: https://github.com/", "/actions".
Qed.

(** C5: when the endpoint answers with status 401, the process prints, after
    the status lines, that authentication failed because the token is
    invalid or expired, and exits with status 1. *)
Theorem status_401_reports_authentication_failure (resp : Response) :
  replies w (trace (exec w main)) = [Some resp] →
  status_code resp = 401 →
  printed (trace (exec w main)) =
    banner ++ ["❌ Authentication failed. Invalid or expired token."] ∧
  exit_status (outcome (exec w main)) = 1.
Proof.
  intros Hreply%replies_main H401.
  rewrite (outcome_main w token), (trace_main w token) by done.
  dispatch_on Hreply; try lia. done.
Qed.

(** C6: when the endpoint answers with status 404, the process prints, after
    the status lines, that the workflow was not found, and exits with
    status 1. *)
Theorem status_404_reports_workflow_not_found (resp : Response) :
  replies w (trace (exec w main)) = [Some resp] →
  status_code resp = 404 →
  printed (trace (exec w main)) =
    banner ++ ["❌ Workflow not found. Make sure the workflow file exists."] ∧
  exit_status (outcome (exec w main)) = 1.
Proof.
  intros Hreply%replies_main H404.
  rewrite (outcome_main w token), (trace_main w token) by done.
  dispatch_on Hreply; try lia. done.
Qed.

(** C7: when the endpoint answers with a status other than 204, 401 and 404,
    whatever the body, the process prints, after the status lines, one line
    that ends with the decimal numeral of the status code (the digits, after
    a minus sign for a negative number, which read back as the code) and
    then the text of the response unchanged, and exits with status 1. *)
Theorem other_status_reports_code_and_body (resp : Response) :
  replies w (trace (exec w main)) = [Some resp] →
  status_code resp ≠ 204 → status_code resp ≠ 401 → status_code resp ≠ 404 →
  ∃ numeral : string,
    numeral = pretty (status_code resp) ∧
    read_int numeral = Some (status_code resp) ∧
    printed (trace (exec w main)) =
      banner ++ ["❌ Error: " +:+ numeral; text resp] ∧
    stdout (trace (exec w main)) =
      "🔄 Triggering workflow: build-release.yml" +:+ newline +:+
      "📍 Repository: cedyson8-creator/traffic-booster-app" +:+ newline +:+
      "🌿 Branch: main" +:+ newline +:+
      "❌ Error: " +:+ numeral +:+ newline +:+
      text resp +:+ newline ∧
    exit_status (outcome (exec w main)) = 1.
Proof.
  intros Hreply%replies_main H204 H401 H404.
  exists (pretty (status_code resp)).
  split; [done|]. split; [apply read_int_pretty|].
  rewrite (outcome_main w token), (trace_main w token) by done.
  dispatch_on Hreply; try lia. done.
Qed.

(** C8: whatever the endpoint does (any status code, or a transport
    failure), the run hands exactly one request to the HTTP client, a POST,
    and what precedes it in the run is exactly the printing of the three
    status lines naming the workflow, the repository and the branch; no
    request follows it. *)
Theorem one_post_after_three_status_lines :
  ∃ (req : Request) (rest : list Event),
    trace (exec w main) =
      [EvPrint "🔄 Triggering workflow: build-release.yml";
       EvPrint "📍 Repository: cedyson8-creator/traffic-booster-app";
       EvPrint "🌿 Branch: main";
       EvRequest req] ++ rest ∧
    req_method req = POST ∧
    requested rest = [] ∧
    length (requested (trace (exec w main))) = 1%nat.
Proof.
  rewrite (trace_main w token) by done.
  exists (mkRequest POST url payload (headers (Some token))).
  unfold trigger_workflow; cbn.
  destruct (endpoint w _) as [resp|]; cbn.
  - eexists; split; [reflexivity|].
    by destruct (status_code resp =? 204), (status_code resp =? 401),
      (status_code resp =? 404).
  - by exists [].
Qed.

End Authenticated.

(** ** The token and the output *)

(** C9: two invocations with non-empty tokens whose requests are answered
    alike (the same response, or a transport failure in both) print the same
    lines, write the same standard output and exit with the same status.
    Their requests agree in method, URL, payload and every header other than
    Authorization: the token reaches that header and nothing else. *)
Theorem token_does_not_reach_stdout (w1 w2 : World) (token1 token2 : string) :
  environ w1 !! "GITHUB_TOKEN" = Some token1 → token1 ≠ "" →
  environ w2 !! "GITHUB_TOKEN" = Some token2 → token2 ≠ "" →
  replies w1 (trace (exec w1 main)) = replies w2 (trace (exec w2 main)) →
  printed (trace (exec w1 main)) = printed (trace (exec w2 main)) ∧
  stdout (trace (exec w1 main)) = stdout (trace (exec w2 main)) ∧
  exit_status (outcome (exec w1 main)) = exit_status (outcome (exec w2 main)) ∧
  ∃ req1 req2 : Request,
    requested (trace (exec w1 main)) = [req1] ∧
    requested (trace (exec w2 main)) = [req2] ∧
    req_method req1 = req_method req2 ∧
    req_url req1 = req_url req2 ∧
    req_json req1 = req_json req2 ∧
    delete "Authorization" (req_headers req1) =
      delete "Authorization" (req_headers req2).
Proof.
  intros Henv1 Htok1 Henv2 Htok2 Hsame.
  unfold replies in Hsame.
  rewrite (requested_main w1 token1), (requested_main w2 token2) in Hsame by done.
  injection Hsame as Hsame.
  rewrite stdout_printed, (stdout_printed (trace (exec w2 main))).
  rewrite (requested_main w1 token1), (requested_main w2 token2) by done.
  rewrite (outcome_main w1 token1), (outcome_main w2 token2) by done.
  rewrite (trace_main w1 token1), (trace_main w2 token2) by done.
  assert (printed (trace (exec w1 (trigger_workflow (Some token1)))) =
          printed (trace (exec w2 (trigger_workflow (Some token2)))) ∧
          outcome (exec w1 (trigger_workflow (Some token1))) =
          outcome (exec w2 (trigger_workflow (Some token2)))) as [-> ->].
  { unfold trigger_workflow; cbn. rewrite Hsame.
    destruct (endpoint w2 _) as [resp|]; cbn; [|done].
    by destruct (status_code resp =? 204), (status_code resp =? 401),
      (status_code resp =? 404). }
  repeat split. by eexists _, _.
Qed.

(** ** The status dispatch *)

(** C10: for every token value, every status code and every body with which
    the endpoint answers, [trigger_workflow] returns a boolean, [True] when
    the code is 204 and [False] otherwise, and what it printed after the
    status lines is the report of exactly one of the four branches: 204,
    401, 404, or any other code. *)
Theorem status_dispatch_is_total (w : World) (token : option string)
    (resp : Response) :
  replies w (trace (exec w (trigger_workflow token))) = [Some resp] →
  outcome (exec w (trigger_workflow token)) =
    Returned (status_code resp =? 204) ∧
  ((status_code resp = 204 ∧
    printed (trace (exec w (trigger_workflow token))) =
      banner ++
      ["✅ Workflow triggered successfully!";
       "📊 Check progress at: https://github.com/cedyson8-creator/traffic-booster-app/actions"]) ∨
   (status_code resp = 401 ∧
    printed (trace (exec w (trigger_workflow token))) =
      banner ++ ["❌ Authentication failed. Invalid or expired token."]) ∨
   (status_code resp = 404 ∧
    printed (trace (exec w (trigger_workflow token))) =
      banner ++ ["❌ Workflow not found. Make sure the workflow file exists."]) ∨
   (status_code resp ≠ 204 ∧ status_code resp ≠ 401 ∧ status_code resp ≠ 404 ∧
    printed (trace (exec w (trigger_workflow token))) =
      banner ++ ["❌ Error: " +:+ fmt_int (status_code resp); text resp])).
Proof.
  intros Hreply%replies_trigger_workflow.
  dispatch_on Hreply; (split; [done|]).
  - by left.
  - by right; left.
  - by right; right; left.
  - by right; right; right.
Qed.

(** * Sample runs

    The statements above, at the sample worlds. *)

(** The run against an endpoint answering 500 with body internal error. *)
Example stdout_of_failing_run :
  stdout (trace (exec failing main)) =
    "🔄 Triggering workflow: build-release.yml" +:+ newline +:+
    "📍 Repository: cedyson8-creator/traffic-booster-app" +:+ newline +:+
    "🌿 Branch: main" +:+ newline +:+
    "❌ Error: 500" +:+ newline +:+
    "internal error" +:+ newline
  ∧ exit_status (outcome (exec failing main)) = 1.
Proof. split; reflexivity. Qed.

(** An empty token is a missing token, even where the endpoint would accept
    the request. *)
Example blank_run :
  trace (exec blank main) = EvPrint <$> instructions ∧
  exit_status (outcome (exec blank main)) = 1.
Proof. split; reflexivity. Qed.

(** A transport failure ends the run after the request, with status 1. *)
Example unreachable_run :
  printed (trace (exec unreachable main)) = banner ∧
  outcome (exec unreachable main) = Unhandled ∧
  exit_status (outcome (exec unreachable main)) = 1.
Proof. repeat split; reflexivity. Qed.

Lemma exit_status_0_iff_204_accepted :
  environ accepted !! "GITHUB_TOKEN" = Some "ghp_example" ∧
  "ghp_example" ≠ "" ∧
  replies accepted (trace (exec accepted main)) = [Some (mkResponse 204 "")] ∧
  (exit_status (outcome (exec accepted main)) = 0
     ↔ status_code (mkResponse 204 "") = 204).
Proof.
  assert (Henv : environ accepted !! "GITHUB_TOKEN" = Some "ghp_example")
    by reflexivity.
  assert (Htok : "ghp_example" ≠ "") by discriminate.
  assert (Hreply : replies accepted (trace (exec accepted main)) =
                     [Some (mkResponse 204 "")]) by reflexivity.
  split; [exact Henv|]. split; [exact Htok|]. split; [exact Hreply|].
  apply (exit_status_0_iff_204 accepted "ghp_example" Henv Htok _ Hreply).
Defined.

Lemma request_is_fixed_post_rejected :
  environ rejected !! "GITHUB_TOKEN" = Some "ghp_other" ∧
  "ghp_other" ≠ "" ∧
  ∃ req : Request,
    requested (trace (exec rejected main)) = [req] ∧
    req_headers req !! "Authorization" = Some "Bearer ghp_other".
Proof.
  assert (Henv : environ rejected !! "GITHUB_TOKEN" = Some "ghp_other")
    by reflexivity.
  assert (Htok : "ghp_other" ≠ "") by discriminate.
  split; [exact Henv|]. split; [exact Htok|].
  destruct (request_is_fixed_post rejected "ghp_other" Henv Htok)
    as (req & Hreq & _ & _ & _ & Hauth & _).
  exists req. split; [exact Hreq | exact Hauth].
Defined.

Lemma status_204_reports_success_accepted :
  environ accepted !! "GITHUB_TOKEN" = Some "ghp_example" ∧
  "ghp_example" ≠ "" ∧
  replies accepted (trace (exec accepted main)) = [Some (mkResponse 204 "")] ∧
  status_code (mkResponse 204 "") = 204 ∧
  exit_status (outcome (exec accepted main)) = 0.
Proof.
  assert (Henv : environ accepted !! "GITHUB_TOKEN" = Some "ghp_example")
    by reflexivity.
  assert (Htok : "ghp_example" ≠ "") by discriminate.
  assert (Hreply : replies accepted (trace (exec accepted main)) =
                     [Some (mkResponse 204 "")]) by reflexivity.
  assert (H204 : status_code (mkResponse 204 "") = 204) by reflexivity.
  split; [exact Henv|]. split; [exact Htok|]. split; [exact Hreply|].
  split; [exact H204|].
  apply (status_204_reports_success accepted "ghp_example" Henv Htok _
           Hreply H204).
Defined.

Lemma status_401_reports_authentication_failure_rejected :
  environ rejected !! "GITHUB_TOKEN" = Some "ghp_other" ∧
  "ghp_other" ≠ "" ∧
  replies rejected (trace (exec rejected main)) =
    [Some (mkResponse 401 "Bad credentials")] ∧
  status_code (mkResponse 401 "Bad credentials") = 401 ∧
  exit_status (outcome (exec rejected main)) = 1.
Proof.
  assert (Henv : environ rejected !! "GITHUB_TOKEN" = Some "ghp_other")
    by reflexivity.
  assert (Htok : "ghp_other" ≠ "") by discriminate.
  assert (Hreply : replies rejected (trace (exec rejected main)) =
                     [Some (mkResponse 401 "Bad credentials")]) by reflexivity.
  assert (H401 : status_code (mkResponse 401 "Bad credentials") = 401)
    by reflexivity.
  split; [exact Henv|]. split; [exact Htok|]. split; [exact Hreply|].
  split; [exact H401|].
  apply (status_401_reports_authentication_failure rejected "ghp_other"
           Henv Htok _ Hreply H401).
Defined.

Lemma status_404_reports_workflow_not_found_sample :
  environ not_found !! "GITHUB_TOKEN" = Some "ghp_example" ∧
  "ghp_example" ≠ "" ∧
  replies not_found (trace (exec not_found main)) =
    [Some (mkResponse 404 "Not Found")] ∧
  status_code (mkResponse 404 "Not Found") = 404 ∧
  exit_status (outcome (exec not_found main)) = 1.
Proof.
  assert (Henv : environ not_found !! "GITHUB_TOKEN" = Some "ghp_example")
    by reflexivity.
  assert (Htok : "ghp_example" ≠ "") by discriminate.
  assert (Hreply : replies not_found (trace (exec not_found main)) =
                     [Some (mkResponse 404 "Not Found")]) by reflexivity.
  assert (H404 : status_code (mkResponse 404 "Not Found") = 404)
    by reflexivity.
  split; [exact Henv|]. split; [exact Htok|]. split; [exact Hreply|].
  split; [exact H404|].
  apply (status_404_reports_workflow_not_found not_found "ghp_example"
           Henv Htok _ Hreply H404).
Defined.

Lemma other_status_reports_code_and_body_500 :
  environ failing !! "GITHUB_TOKEN" = Some "ghp_example" ∧
  "ghp_example" ≠ "" ∧
  replies failing (trace (exec failing main)) =
    [Some (mkResponse 500 "internal error")] ∧
  status_code (mkResponse 500 "internal error") ≠ 204 ∧
  status_code (mkResponse 500 "internal error") ≠ 401 ∧
  status_code (mkResponse 500 "internal error") ≠ 404 ∧
  printed (trace (exec failing main)) =
    banner ++ ["❌ Error: 500"; "internal error"].
Proof.
  assert (Henv : environ failing !! "GITHUB_TOKEN" = Some "ghp_example")
    by reflexivity.
  assert (Htok : "ghp_example" ≠ "") by discriminate.
  assert (Hreply : replies failing (trace (exec failing main)) =
                     [Some (mkResponse 500 "internal error")]) by reflexivity.
  assert (H204 : status_code (mkResponse 500 "internal error") ≠ 204)
    by discriminate.
  assert (H401 : status_code (mkResponse 500 "internal error") ≠ 401)
    by discriminate.
  assert (H404 : status_code (mkResponse 500 "internal error") ≠ 404)
    by discriminate.
  split; [exact Henv|]. split; [exact Htok|]. split; [exact Hreply|].
  split; [exact H204|]. split; [exact H401|]. split; [exact H404|].
  destruct (other_status_reports_code_and_body failing "ghp_example" Henv Htok
              _ Hreply H204 H401 H404) as (numeral & -> & _ & Hprinted & _).
  exact Hprinted.
Defined.

Lemma one_post_after_three_status_lines_unreachable :
  environ unreachable !! "GITHUB_TOKEN" = Some "ghp_example" ∧
  "ghp_example" ≠ "" ∧
  length (requested (trace (exec unreachable main))) = 1%nat.
Proof.
  assert (Henv : environ unreachable !! "GITHUB_TOKEN" = Some "ghp_example")
    by reflexivity.
  assert (Htok : "ghp_example" ≠ "") by discriminate.
  split; [exact Henv|]. split; [exact Htok|].
  destruct (one_post_after_three_status_lines unreachable "ghp_example"
              Henv Htok) as (req & rest & _ & _ & _ & Hone).
  exact Hone.
Defined.

Lemma token_does_not_reach_stdout_two_tokens :
  environ failing !! "GITHUB_TOKEN" = Some "ghp_example" ∧
  "ghp_example" ≠ "" ∧
  environ failing_other !! "GITHUB_TOKEN" = Some "ghp_other" ∧
  "ghp_other" ≠ "" ∧
  replies failing (trace (exec failing main)) =
    replies failing_other (trace (exec failing_other main)) ∧
  stdout (trace (exec failing main)) = stdout (trace (exec failing_other main)).
Proof.
  assert (Henv1 : environ failing !! "GITHUB_TOKEN" = Some "ghp_example")
    by reflexivity.
  assert (Htok1 : "ghp_example" ≠ "") by discriminate.
  assert (Henv2 : environ failing_other !! "GITHUB_TOKEN" = Some "ghp_other")
    by reflexivity.
  assert (Htok2 : "ghp_other" ≠ "") by discriminate.
  assert (Hsame : replies failing (trace (exec failing main)) =
                    replies failing_other (trace (exec failing_other main)))
    by reflexivity.
  split; [exact Henv1|]. split; [exact Htok1|].
  split; [exact Henv2|]. split; [exact Htok2|]. split; [exact Hsame|].
  apply (token_does_not_reach_stdout failing failing_other "ghp_example"
           "ghp_other" Henv1 Htok1 Henv2 Htok2 Hsame).
Defined.

Lemma status_dispatch_is_total_without_token :
  replies failing (trace (exec failing (trigger_workflow None))) =
    [Some (mkResponse 500 "internal error")] ∧
  outcome (exec failing (trigger_workflow None)) = Returned false.
Proof.
  assert (Hreply : replies failing (trace (exec failing (trigger_workflow None)))
                     = [Some (mkResponse 500 "internal error")]) by reflexivity.
  split; [exact Hreply|].
  apply (status_dispatch_is_total failing None _ Hreply).
Defined.

(** * Further properties of the script *)

(** ** Lines and numerals *)

Lemma single_line_app (s1 s2 : string) :
  single_line (s1 +:+ s2) = single_line s1 && single_line s2.
Proof.
  induction s1 as [|c s1 IH]; [done|].
  change (single_line (String c s1 +:+ s2))
    with (negb (Ascii.eqb c "010") && single_line (s1 +:+ s2)).
  rewrite IH. apply andb_assoc.
Qed.

Lemma single_line_pretty_N_go (x : N) (s : string) :
  single_line s = true → single_line (pretty_N_go x s) = true.
Proof.
  revert s. induction (N.lt_wf_0 x) as [x _ IH]; intros s Hs.
  assert (x = 0 ∨ 0 < x)%N as [->|Hpos] by lia.
  - by rewrite pretty_N_go_0.
  - rewrite pretty_N_go_step by done. apply IH.
    { by apply N.div_lt. }
    cbn. rewrite Hs, andb_true_r.
    unfold pretty_N_char. by repeat case_match.
Qed.

Lemma single_line_pretty_N (x : N) : single_line (pretty x) = true.
Proof.
  unfold pretty, pretty_N. case_decide; [done|].
  by apply single_line_pretty_N_go.
Qed.

(** The numeral of a status code holds no line feed. *)
Lemma single_line_fmt_int (n : Z) : single_line (fmt_int n) = true.
Proof.
  destruct n as [|p|p]; [done|..].
  - apply (single_line_pretty_N (N.pos p)).
  - change (fmt_int (Z.neg p)) with (String "-" (pretty (N.pos p))).
    apply (single_line_pretty_N (N.pos p)).
Qed.

(** Two outputs that agree, each starting with a line, agree on that line
    and on what follows it. *)
Lemma cut_at_newline (s1 s2 t1 t2 : string) :
  single_line s1 = true → single_line s2 = true →
  s1 +:+ newline +:+ t1 = s2 +:+ newline +:+ t2 → s1 = s2 ∧ t1 = t2.
Proof.
  revert s2. induction s1 as [|c1 s1 IH]; intros [|c2 s2]; cbn.
  - by intros _ _ [= ?].
  - by intros _ [Hc _]%andb_prop [= <- _].
  - by intros [Hc _]%andb_prop _ [= -> _].
  - intros [_ H1]%andb_prop [_ H2]%andb_prop [= -> Heq].
    by destruct (IH s2 H1 H2 Heq) as [-> ->].
Qed.

Lemma append_newline_inj (t1 t2 : string) :
  t1 +:+ newline = t2 +:+ newline → t1 = t2.
Proof.
  revert t2. induction t1 as [|c1 t1 IH]; intros [|c2 t2]; cbn; try done.
  - intros [= <- Heq]. by destruct t2.
  - intros [= -> Heq]. by destruct t1.
  - intros [= -> Heq]. f_equal. by apply IH.
Qed.

(** ** Transport failures *)

(** X1: when the HTTP client fails at transport level, the run is the three
    status lines and the one request: nothing is printed after the request,
    the exception propagates, and the process exits with status 1. *)
Theorem transport_failure_ends_run (w : World) (token : string) :
  environ w !! "GITHUB_TOKEN" = Some token → token ≠ "" →
  replies w (trace (exec w main)) = [None] →
  (∃ req : Request,
     trace (exec w main) = (EvPrint <$> banner) ++ [EvRequest req]) ∧
  printed (trace (exec w main)) = banner ∧
  outcome (exec w main) = Unhandled ∧
  exit_status (outcome (exec w main)) = 1.
Proof.
  intros Henv Htok Hreply.
  unfold replies in Hreply.
  rewrite (requested_main w token) in Hreply by done.
  injection Hreply as Hreply.
  rewrite (outcome_main w token), (trace_main w token) by done.
  unfold trigger_workflow; cbn. rewrite Hreply; cbn.
  split; [by eexists|done].
Qed.

(** ** Every invocation *)

(** X2: whatever the environment and the endpoint, the main block never runs
    to its end: it leaves through [sys.exit] or through the exception of the
    HTTP client, and the exit status is 0 or 1. *)
Theorem exit_status_is_0_or_1 (w : World) :
  (exit_status (outcome (exec w main)) = 0 ∨
   exit_status (outcome (exec w main)) = 1) ∧
  (outcome (exec w main) = SystemExit 0 ∨
   outcome (exec w main) = SystemExit 1 ∨
   outcome (exec w main) = Unhandled).
Proof.
  destruct (environ w !! "GITHUB_TOKEN") as [token|] eqn:Henv.
  - destruct (decide (token = "")) as [->|Htok].
    + rewrite exec_main_falsy by (by rewrite Henv). cbn. auto.
    + rewrite (outcome_main w token) by done.
      unfold trigger_workflow; cbn.
      destruct (endpoint w _) as [resp|]; cbn; [|auto].
      destruct (status_code resp =? 204), (status_code resp =? 401),
        (status_code resp =? 404); cbn; auto.
  - rewrite exec_main_falsy by (by rewrite Henv). cbn. auto.
Qed.

(** X3: the process exits with status 0 exactly when GITHUB_TOKEN holds a
    non-empty token and the endpoint answered the request with status 204;
    a missing token, a transport failure and every other status code give a
    non-zero status. *)
Theorem exit_status_0_characterised (w : World) :
  exit_status (outcome (exec w main)) = 0 ↔
  ∃ (token : string) (resp : Response),
    environ w !! "GITHUB_TOKEN" = Some token ∧ token ≠ "" ∧
    replies w (trace (exec w main)) = [Some resp] ∧
    status_code resp = 204.
Proof.
  split.
  - destruct (environ w !! "GITHUB_TOKEN") as [token|] eqn:Henv.
    + destruct (decide (token = "")) as [->|Htok].
      { by rewrite exec_main_falsy by (by rewrite Henv). }
      unfold replies.
      rewrite (outcome_main w token), (requested_main w token) by done.
      unfold trigger_workflow; cbn.
      destruct (endpoint w _) as [resp|]; cbn; [|done].
      destruct (Z.eqb_spec (status_code resp) 204) as [H204|_]; cbn.
      { intros _. by exists token, resp. }
      by destruct (status_code resp =? 401), (status_code resp =? 404).
    + by rewrite exec_main_falsy by (by rewrite Henv).
  - intros (token & resp & Henv & Htok & Hreply & H204).
    apply (replies_main w token) in Hreply; [|done..].
    rewrite (outcome_main w token) by done.
    dispatch_on Hreply; (done || lia).
Qed.

(** X4: of the environment the script reads GITHUB_TOKEN and nothing else:
    two invocations that agree on this variable and face the same endpoint
    have the same run, whatever the other variables hold. *)
Theorem only_github_token_is_read (w1 w2 : World) :
  environ w1 !! "GITHUB_TOKEN" = environ w2 !! "GITHUB_TOKEN" →
  (∀ req : Request, endpoint w1 req = endpoint w2 req) →
  exec w1 main = exec w2 main.
Proof.
  intros Henv Hendpoint.
  unfold main, trigger_workflow; cbn. rewrite Henv.
  destruct (environ w2 !! "GITHUB_TOKEN") as [[|c token]|]; cbn; [done| |done].
  rewrite Hendpoint.
  destruct (endpoint w2 _) as [resp|]; cbn; [|done].
  by destruct (status_code resp =? 204), (status_code resp =? 401),
    (status_code resp =? 404).
Qed.

(** ** What the output says about the response *)

(** X5: for the status codes 204, 401 and 404 the body of the response is
    not looked at: two invocations answered with the same such code write
    the same standard output and exit with the same status, whatever the
    two bodies are. *)
Theorem body_is_ignored_for_listed_codes (w1 w2 : World)
    (token1 token2 : string) (resp1 resp2 : Response) :
  environ w1 !! "GITHUB_TOKEN" = Some token1 → token1 ≠ "" →
  environ w2 !! "GITHUB_TOKEN" = Some token2 → token2 ≠ "" →
  replies w1 (trace (exec w1 main)) = [Some resp1] →
  replies w2 (trace (exec w2 main)) = [Some resp2] →
  status_code resp1 = status_code resp2 →
  status_code resp1 = 204 ∨ status_code resp1 = 401 ∨ status_code resp1 = 404 →
  stdout (trace (exec w1 main)) = stdout (trace (exec w2 main)) ∧
  exit_status (outcome (exec w1 main)) = exit_status (outcome (exec w2 main)).
Proof.
  intros Henv1 Htok1 Henv2 Htok2.
  intros Hreply1%(replies_main w1 token1) Hreply2%(replies_main w2 token2);
    [|done..].
  intros Hcode Hlisted.
  rewrite (outcome_main w1 token1), (outcome_main w2 token2) by done.
  rewrite (trace_main w1 token1), (trace_main w2 token2) by done.
  unfold trigger_workflow; cbn. rewrite Hreply1, Hreply2, <-Hcode; cbn.
  destruct (Z.eqb_spec (status_code resp1) 204),
    (Z.eqb_spec (status_code resp1) 401),
    (Z.eqb_spec (status_code resp1) 404); cbn; (done || lia).
Qed.

(** X6: the standard output tells the four kinds of response apart, and
    for a code other than 204, 401 and 404 it determines the code and the
    body: two invocations with the same output were answered both with 204,
    or both with 401, or both with 404, or with the same other code and the
    same body. *)
Theorem stdout_determines_response (w1 w2 : World) (token1 token2 : string)
    (resp1 resp2 : Response) :
  environ w1 !! "GITHUB_TOKEN" = Some token1 → token1 ≠ "" →
  environ w2 !! "GITHUB_TOKEN" = Some token2 → token2 ≠ "" →
  replies w1 (trace (exec w1 main)) = [Some resp1] →
  replies w2 (trace (exec w2 main)) = [Some resp2] →
  stdout (trace (exec w1 main)) = stdout (trace (exec w2 main)) →
  (status_code resp1 = 204 ↔ status_code resp2 = 204) ∧
  (status_code resp1 = 401 ↔ status_code resp2 = 401) ∧
  (status_code resp1 = 404 ↔ status_code resp2 = 404) ∧
  (status_code resp1 ≠ 204 → status_code resp1 ≠ 401 →
   status_code resp1 ≠ 404 →
   status_code resp1 = status_code resp2 ∧ text resp1 = text resp2).
Proof.
  intros Henv1 Htok1 Henv2 Htok2.
  intros Hreply1%(replies_main w1 token1) Hreply2%(replies_main w2 token2);
    [|done..].
  rewrite (trace_main w1 token1), (trace_main w2 token2) by done.
  unfold trigger_workflow; cbn. rewrite Hreply1, Hreply2; cbn.
  destruct (Z.eqb_spec (status_code resp1) 204),
    (Z.eqb_spec (status_code resp1) 401),
    (Z.eqb_spec (status_code resp1) 404),
    (Z.eqb_spec (status_code resp2) 204),
    (Z.eqb_spec (status_code resp2) 401),
    (Z.eqb_spec (status_code resp2) 404); cbn; intros Hout;
    try lia; try discriminate Hout.
  (* both reports come from the last branch: drop the three status lines,
     then compare the error lines and the bodies *)
  do 3 (apply cut_at_newline in Hout as [_ Hout]; [|done..]).
  apply cut_at_newline in Hout as [Hline Hbody];
    [|by rewrite single_line_app, single_line_fmt_int..].
  apply (inj (String.app _)), fmt_int_inj in Hline.
  apply append_newline_inj in Hbody.
  repeat split; intros; (done || lia).
Qed.

(** ** Credentials *)

(** X7: [trigger_workflow] does not look at its argument before it sends
    the request: called with [None] or with the empty string it still hands
    one request to the HTTP client, with the Authorization header
    [Bearer None] or [Bearer ] followed by nothing.  Only the main block
    keeps such a token away from it. *)
Theorem trigger_workflow_has_no_guard (w : World) (token : option string) :
  truthy token = false →
  ∃ req : Request,
    requested (trace (exec w (trigger_workflow token))) = [req] ∧
    (token = None ∧ req_headers req !! "Authorization" = Some "Bearer None" ∨
     token = Some "" ∧ req_headers req !! "Authorization" = Some "Bearer ").
Proof.
  intros Hfalsy. eexists. split; [apply requested_trigger_workflow|].
  destruct token as [[|c token]|]; [|done|]; cbn.
  - right. by split.
  - left. by split.
Qed.

(** X8: the main block never sends a request without a credential: in
    every world, each request of the run is a POST whose Authorization
    header is Bearer followed by the non-empty value of GITHUB_TOKEN. *)
Theorem every_request_carries_the_token (w : World) (req : Request) :
  req ∈ requested (trace (exec w main)) →
  req_method req = POST ∧
  ∃ token : string,
    environ w !! "GITHUB_TOKEN" = Some token ∧ token ≠ "" ∧
    req_headers req !! "Authorization" = Some ("Bearer " +:+ token).
Proof.
  destruct (environ w !! "GITHUB_TOKEN") as [token|] eqn:Henv.
  - destruct (decide (token = "")) as [->|Htok].
    + rewrite exec_main_falsy by (by rewrite Henv). cbn.
      by intros ?%elem_of_nil.
    + rewrite (requested_main w token) by done.
      intros ->%list_elem_of_singleton. cbn.
      split; [done|]. by exists token.
  - rewrite exec_main_falsy by (by rewrite Henv). cbn.
    by intros ?%elem_of_nil.
Qed.

(** ** The further properties at the sample worlds *)

Lemma transport_failure_ends_run_unreachable :
  environ unreachable !! "GITHUB_TOKEN" = Some "ghp_example" ∧
  "ghp_example" ≠ "" ∧
  replies unreachable (trace (exec unreachable main)) = [None] ∧
  exit_status (outcome (exec unreachable main)) = 1.
Proof.
  assert (Henv : environ unreachable !! "GITHUB_TOKEN" = Some "ghp_example")
    by reflexivity.
  assert (Htok : "ghp_example" ≠ "") by discriminate.
  assert (Hreply : replies unreachable (trace (exec unreachable main)) = [None])
    by reflexivity.
  split; [exact Henv|]. split; [exact Htok|]. split; [exact Hreply|].
  apply (transport_failure_ends_run unreachable "ghp_example" Henv Htok Hreply).
Defined.

Lemma only_github_token_is_read_elsewhere :
  environ failing !! "GITHUB_TOKEN" =
    environ failing_elsewhere !! "GITHUB_TOKEN" ∧
  environ failing !! "HOME" ≠ environ failing_elsewhere !! "HOME" ∧
  (∀ req : Request, endpoint failing req = endpoint failing_elsewhere req) ∧
  exec failing main = exec failing_elsewhere main.
Proof.
  assert (Henv : environ failing !! "GITHUB_TOKEN" =
                   environ failing_elsewhere !! "GITHUB_TOKEN") by reflexivity.
  assert (Hendpoint : ∀ req : Request,
            endpoint failing req = endpoint failing_elsewhere req)
    by (intros req; reflexivity).
  split; [exact Henv|]. split; [discriminate|]. split; [exact Hendpoint|].
  apply (only_github_token_is_read failing failing_elsewhere Henv Hendpoint).
Defined.

Lemma body_is_ignored_for_listed_codes_404 :
  environ not_found !! "GITHUB_TOKEN" = Some "ghp_example" ∧
  "ghp_example" ≠ "" ∧
  environ not_found_verbose !! "GITHUB_TOKEN" = Some "ghp_other" ∧
  "ghp_other" ≠ "" ∧
  replies not_found (trace (exec not_found main)) =
    [Some (mkResponse 404 "Not Found")] ∧
  replies not_found_verbose (trace (exec not_found_verbose main)) =
    [Some (mkResponse 404 "no workflow named build-release.yml")] ∧
  stdout (trace (exec not_found main)) =
    stdout (trace (exec not_found_verbose main)).
Proof.
  assert (Henv1 : environ not_found !! "GITHUB_TOKEN" = Some "ghp_example")
    by reflexivity.
  assert (Htok1 : "ghp_example" ≠ "") by discriminate.
  assert (Henv2 : environ not_found_verbose !! "GITHUB_TOKEN" = Some "ghp_other")
    by reflexivity.
  assert (Htok2 : "ghp_other" ≠ "") by discriminate.
  assert (Hreply1 : replies not_found (trace (exec not_found main)) =
                      [Some (mkResponse 404 "Not Found")]) by reflexivity.
  assert (Hreply2 :
            replies not_found_verbose (trace (exec not_found_verbose main)) =
              [Some (mkResponse 404 "no workflow named build-release.yml")])
    by reflexivity.
  assert (Hcode : status_code (mkResponse 404 "Not Found") =
                  status_code (mkResponse 404 "no workflow named build-release.yml"))
    by reflexivity.
  assert (Hlisted : status_code (mkResponse 404 "Not Found") = 204 ∨
                    status_code (mkResponse 404 "Not Found") = 401 ∨
                    status_code (mkResponse 404 "Not Found") = 404)
    by (right; right; reflexivity).
  split; [exact Henv1|]. split; [exact Htok1|].
  split; [exact Henv2|]. split; [exact Htok2|].
  split; [exact Hreply1|]. split; [exact Hreply2|].
  apply (body_is_ignored_for_listed_codes not_found not_found_verbose
           "ghp_example" "ghp_other" _ _ Henv1 Htok1 Henv2 Htok2
           Hreply1 Hreply2 Hcode Hlisted).
Defined.

Lemma stdout_determines_response_500 :
  environ failing !! "GITHUB_TOKEN" = Some "ghp_example" ∧
  "ghp_example" ≠ "" ∧
  environ failing_other !! "GITHUB_TOKEN" = Some "ghp_other" ∧
  "ghp_other" ≠ "" ∧
  replies failing (trace (exec failing main)) =
    [Some (mkResponse 500 "internal error")] ∧
  replies failing_other (trace (exec failing_other main)) =
    [Some (mkResponse 500 "internal error")] ∧
  stdout (trace (exec failing main)) =
    stdout (trace (exec failing_other main)) ∧
  (status_code (mkResponse 500 "internal error") = 204
     ↔ status_code (mkResponse 500 "internal error") = 204).
Proof.
  assert (Henv1 : environ failing !! "GITHUB_TOKEN" = Some "ghp_example")
    by reflexivity.
  assert (Htok1 : "ghp_example" ≠ "") by discriminate.
  assert (Henv2 : environ failing_other !! "GITHUB_TOKEN" = Some "ghp_other")
    by reflexivity.
  assert (Htok2 : "ghp_other" ≠ "") by discriminate.
  assert (Hreply1 : replies failing (trace (exec failing main)) =
                      [Some (mkResponse 500 "internal error")]) by reflexivity.
  assert (Hreply2 : replies failing_other (trace (exec failing_other main)) =
                      [Some (mkResponse 500 "internal error")]) by reflexivity.
  assert (Hout : stdout (trace (exec failing main)) =
                 stdout (trace (exec failing_other main))) by reflexivity.
  split; [exact Henv1|]. split; [exact Htok1|].
  split; [exact Henv2|]. split; [exact Htok2|].
  split; [exact Hreply1|]. split; [exact Hreply2|]. split; [exact Hout|].
  apply (stdout_determines_response failing failing_other "ghp_example"
           "ghp_other" _ _ Henv1 Htok1 Henv2 Htok2 Hreply1 Hreply2 Hout).
Defined.

Lemma trigger_workflow_has_no_guard_none :
  truthy None = false ∧
  ∃ req : Request,
    requested (trace (exec unset (trigger_workflow None))) = [req] ∧
    (None = @None string ∧
       req_headers req !! "Authorization" = Some "Bearer None" ∨
     None = Some "" ∧ req_headers req !! "Authorization" = Some "Bearer ").
Proof.
  assert (Hfalsy : truthy None = false) by reflexivity.
  split; [exact Hfalsy|].
  apply (trigger_workflow_has_no_guard unset None Hfalsy).
Defined.

Lemma every_request_carries_the_token_accepted :
  mkRequest POST url payload (headers (Some "ghp_example"))
    ∈ requested (trace (exec accepted main)) ∧
  req_method (mkRequest POST url payload (headers (Some "ghp_example"))) = POST.
Proof.
  assert (Hin : mkRequest POST url payload (headers (Some "ghp_example"))
                  ∈ requested (trace (exec accepted main))).
  { change (mkRequest POST url payload (headers (Some "ghp_example"))
              ∈ [mkRequest POST url payload (headers (Some "ghp_example"))]).
    apply list_elem_of_here. }
  split; [exact Hin|].
  apply (every_request_carries_the_token accepted _ Hin).
Defined.
